(** * panel_wrapper: the privileged dispatcher of tools/panel_wrapper.c

    A shallow embedding of the wrapper's [main] and of its helpers
    ([logmsg], [file_owned_by_allowed], [is_valid_url], [is_safe_path]),
    together with the properties of the dispatcher that its specification
    states.

    C strings are modelled by [string]: the characters that precede the
    terminating NUL.  A pointer that may be NULL is an [option].  The
    operating system is a record of oracles ([Sys]); the calls the program
    makes are recorded, in order, in a trace of events. *)

From Stdlib Require Import ZArith List String Ascii Bool Lia DecimalString.
Import ListNotations.
Open Scope string_scope.
Open Scope Z_scope.

(** ** The C library on strings *)

Module LibC.

(** [strlen]: a [size_t], kept as an integer. *)
Definition strlen (s : string) : Z := Z.of_nat (String.length s).

(** The value of a character as [unsigned char]. *)
Definition uchar (c : ascii) : N := N_of_ascii c.

(** [strncmp(s1, s2, n)].  The C standard fixes only the sign of the
    result; the model returns the sign.  A string that ends first is the
    smaller one, its terminator being compared with a character. *)
Fixpoint strncmp (s1 s2 : string) (n : nat) {struct n} : Z :=
  match n with
  | O => 0
  | S n' =>
      match s1, s2 with
      | EmptyString, EmptyString => 0
      | EmptyString, String _ _ => -1
      | String _ _, EmptyString => 1
      | String c1 t1, String c2 t2 =>
          if (uchar c1 <? uchar c2)%N then -1
          else if (uchar c2 <? uchar c1)%N then 1
          else strncmp t1 t2 n'
      end
  end.

(** [strcmp(s1, s2)], with the same convention. *)
Fixpoint strcmp (s1 s2 : string) : Z :=
  match s1, s2 with
  | EmptyString, EmptyString => 0
  | EmptyString, String _ _ => -1
  | String _ _, EmptyString => 1
  | String c1 t1, String c2 t2 =>
      if (uchar c1 <? uchar c2)%N then -1
      else if (uchar c2 <? uchar c1)%N then 1
      else strcmp t1 t2
  end.

(** [snprintf(buf, size, "%s%s", a, b)] for a literal followed by one [%s]:
    at most [size - 1] characters are stored. *)
Definition snprintf_s (size : Z) (lit a : string) : string :=
  substring 0 (Z.to_nat (size - 1)) (lit ++ a).

(** The text [printf("%d", x)] produces. *)
Definition fmt_int (x : Z) : string := NilZero.string_of_int (Z.to_int x).

(** A 32-bit unsigned value ([uid_t], [gid_t]) read as an [int] by [%d]. *)
Definition as_int (x : Z) : Z :=
  let r := x mod 2 ^ 32 in if r <? 2 ^ 31 then r else r - 2 ^ 32.

Definition nl : string := String (ascii_of_nat 10) EmptyString.

End LibC.
Import LibC.

(** ** Constants of the program *)

Definition LOGFILE : string := "/var/log/panel/panel-wrapper.log".
Definition AUTODEPLOY : string := "/opt/panel/scripts/autodeploy.sh".
Definition MEMWATCH : string := "/opt/panel/scripts/memwatch.sh".

(** [uid_t] is a 32-bit unsigned integer; [(uid_t)x] wraps around. *)
Definition uid_t_of (x : Z) : Z := x mod 2 ^ 32.

(** ** Argument validators *)

(** [is_valid_url]: lines 43-49. *)
Definition is_valid_url (u : option string) : bool :=
  match u with
  | None => false
  | Some u =>
      if strlen u >? 2048 then false
      else if strncmp u "http://" 7 =? 0 then true
      else if strncmp u "https://" 8 =? 0 then true
      else false
  end.

(** The first character of a C string; the terminator when it is empty. *)
Definition char0 (p : string) : ascii :=
  match p with
  | EmptyString => zero
  | String c _ => c
  end.

(** [is_safe_path]: lines 51-60. *)
Definition is_safe_path (p : option string) : bool :=
  match p with
  | None => false
  | Some p =>
      if strlen p >? 4096 then false
      else if negb (Ascii.eqb (char0 p) "/") then false
      else if strncmp p "/var/run/" 9 =? 0 then true
      else if strncmp p "/var/tmp/" 9 =? 0 then true
      else if strncmp p "/tmp/" 5 =? 0 then true
      else false
  end.

(** [s] begins with the literal [pre]. *)
Definition begins_with (pre s : string) : Prop := exists rest, s = pre ++ rest.

(** ** The operating system *)

(** The result of a system call that returns 0, or -1 with [errno] set. *)
Inductive sysret : Type :=
| Ok
| Err (errno : Z).

(** What the process can observe of its surroundings.  Calls that may give
    different answers over time (opening the log, the clock, allocation)
    are indexed by the number of earlier calls of the same kind. *)
Record Sys : Type := mkSys {
  sys_uid : Z;                          (* getuid() *)
  sys_euid : Z;                         (* geteuid() *)
  sys_gid : Z;                          (* getgid() *)
  sys_environ : list string;            (* the environment of the caller *)
  sys_fopen_log : nat -> bool;          (* fopen(LOGFILE, "a") is not NULL *)
  sys_time : nat -> string;             (* the strftime text at a log call *)
  sys_access_x : string -> sysret;      (* access(path, X_OK) *)
  sys_stat_uid : string -> option Z;    (* stat(path): st_uid, None on failure *)
  sys_getpwnam : string -> option Z;    (* getpwnam(name): pw_uid, None for NULL *)
  sys_alloc : nat -> bool;              (* malloc / strdup is not NULL *)
  sys_execve : string -> list string -> list string -> sysret
    (* [Ok]: the process image was replaced; [Err e]: execve returned -1 *)
}.

(** The calls the program makes. *)
Inductive event : Type :=
| EvFopen (path : string) (ok : bool)
| EvLogWrite (line : string)
| EvStderr (text : string)
| EvPerror (tag : string)
| EvAccess (path : string)
| EvStat (path : string)
| EvGetpwnam (name : string)
| EvMalloc (bytes : Z) (ok : bool)
| EvStrdup (s : string) (ok : bool)
| EvExecve (path : string) (args env : list string).

(** How the process ends. *)
Inductive outcome : Type :=
| Exit (code : Z)                                   (* [main] returned *)
| Replaced (path : string) (args env : list string) (* execve succeeded *)
| Fault.                                            (* store through NULL *)

Record state : Type := mkState {
  trace : list event;     (* the calls made so far, oldest first *)
  nfopen : nat;           (* log opening attempts so far *)
  nalloc : nat            (* allocation requests so far *)
}.

Definition init : state := mkState [] 0 0.

(** ** A monad for [main]: state, and leaving [main] early *)

Inductive step (A : Type) : Type :=
| Next (a : A)
| Return (o : outcome).
Arguments Next {A} a.
Arguments Return {A} o.

Definition M (A : Type) : Type := state -> step A * state.

Definition ret {A} (a : A) : M A := fun s => (Next a, s).

Definition bind {A B} (m : M A) (k : A -> M B) : M B :=
  fun s =>
    match m s with
    | (Next a, s') => k a s'
    | (Return o, s') => (Return o, s')
    end.

Definition leave {A} (o : outcome) : M A := fun s => (Return o, s).

Definition emit (e : event) : M unit :=
  fun s => (Next tt, mkState (trace s ++ [e]) (nfopen s) (nalloc s)).

Definition when (c : bool) (m : M unit) : M unit := if c then m else ret tt.

Declare Scope wrapper_scope.
Delimit Scope wrapper_scope with wrapper.
Notation "x <- m ;; k" := (bind m (fun x => k))
  (at level 61, m at next level, right associativity) : wrapper_scope.
Notation "m ;; k" := (bind m (fun _ => k))
  (at level 61, right associativity) : wrapper_scope.
Open Scope wrapper_scope.

(** The environment execve reads from a NULL-terminated array. *)
Fixpoint env_of_array (a : list (option string)) : list string :=
  match a with
  | Some e :: rest => e :: env_of_array rest
  | _ => []
  end.

(** [sizeof(char * )] on an LP64 system. *)
Definition sizeof_charp : Z := 8.

Section Wrapper.

Variable sys : Sys.

(** [logmsg]: lines 16-31.  [msg] is the formatted message. *)
Definition logmsg (msg : string) : M unit :=
  fun s =>
    let n := nfopen s in
    if sys_fopen_log sys n then
      (Next tt,
       mkState (trace s ++ [EvFopen LOGFILE true;
                            EvLogWrite (sys_time sys n ++ ": " ++ msg ++ nl)])
               (S n) (nalloc s))
    else
      (Next tt, mkState (trace s ++ [EvFopen LOGFILE false]) (S n) (nalloc s)).

Definition fprintf_stderr (text : string) : M unit := emit (EvStderr text).

Definition access_x (path : string) : M sysret :=
  emit (EvAccess path) ;; ret (sys_access_x sys path).

Definition stat (path : string) : M (option Z) :=
  emit (EvStat path) ;; ret (sys_stat_uid sys path).

Definition getpwnam (name : string) : M (option Z) :=
  emit (EvGetpwnam name) ;; ret (sys_getpwnam sys name).

Definition malloc (bytes : Z) : M bool :=
  fun s =>
    let ok := sys_alloc sys (nalloc s) in
    (Next ok, mkState (trace s ++ [EvMalloc bytes ok]) (nfopen s) (S (nalloc s))).

Definition strdup (str : string) : M (option string) :=
  fun s =>
    let ok := sys_alloc sys (nalloc s) in
    (Next (if ok then Some str else None),
     mkState (trace s ++ [EvStrdup str ok]) (nfopen s) (S (nalloc s))).

(** [file_owned_by_allowed]: lines 33-41. *)
Definition file_owned_by_allowed (path : string) : M bool :=
  st <- stat path ;;
  match st with
  | None => ret false
  | Some st_uid =>
      pw <- getpwnam "panel" ;;
      let panel_uid := match pw with Some pw_uid => pw_uid | None => uid_t_of (-1) end in
      if (st_uid =? 0) || (st_uid =? panel_uid) then ret true
      else ret false
  end.

(** The block of lines 114-124, and of lines 129-138 with the other key:
    the array of four pointers built when an argument is present. *)
Definition env_with (key arg : string) : M (list (option string)) :=
  let len := strlen key + strlen arg + 1 in
  e <- malloc len ;;
  if negb e then leave (Exit 10)
  else
    let e_text := snprintf_s len key arg in
    envp <- malloc (sizeof_charp * 4) ;;
    if negb envp then leave Fault
    else
      e1 <- strdup "PATH=/usr/bin:/bin" ;;
      e2 <- strdup "LANG=C" ;;
      ret [Some e_text; e1; e2; None].

Definition envp_default : list (option string) :=
  [Some "PATH=/usr/bin:/bin"; Some "LANG=C"; None].

(** [main]: lines 62-154.  [argv] holds the [argc] arguments; with none,
    [argv[0]] is NULL and the usage line shows it as glibc prints it.
    execve returns only to report a failure, by -1: the [return 0] of line
    153 is never reached, and a successful call ends the run in
    [Replaced]. *)
Definition main (argv : list string) : M outcome :=
  let argc := Z.of_nat (List.length argv) in
  if argc <? 2 then
    fprintf_stderr ("Usage: " ++ nth 0 argv "(null)" ++ " <autodeploy|memwatch> [arg]" ++ nl) ;;
    leave (Exit 2)
  else
    let cmd := nth 1 argv "" in
    let arg := if argc >=? 3 then nth_error argv 2 else None in
    let euid := sys_euid sys in
    let uid := sys_uid sys in
    let gid := sys_gid sys in
    logmsg ("invoked by uid=" ++ fmt_int (as_int uid) ++ " euid=" ++ fmt_int (as_int euid)
            ++ " gid=" ++ fmt_int (as_int gid) ++ " cmd=" ++ cmd
            ++ " arg=" ++ match arg with Some a => a | None => "(none)" end) ;;
    script <-
      (if strcmp cmd "autodeploy" =? 0 then
         match arg with
         | Some a =>
             when (negb (is_valid_url arg))
               (logmsg ("invalid download URL: " ++ a) ;;
                fprintf_stderr ("Invalid URL" ++ nl) ;;
                leave (Exit 3))
         | None => ret tt
         end ;;
         ret AUTODEPLOY
       else if strcmp cmd "memwatch" =? 0 then
         match arg with
         | Some a =>
             when (negb (is_safe_path arg))
               (logmsg ("invalid pid file path: " ++ a) ;;
                fprintf_stderr ("Invalid pid file path" ++ nl) ;;
                leave (Exit 3))
         | None => ret tt
         end ;;
         ret MEMWATCH
       else
         logmsg ("unknown command: " ++ cmd) ;;
         fprintf_stderr ("Unknown command" ++ nl) ;;
         leave (Exit 2)) ;;
    x <- access_x script ;;
    match x with
    | Err errno =>
        logmsg ("script not executable: " ++ script ++ " (errno=" ++ fmt_int errno ++ ")") ;;
        fprintf_stderr ("Script not executable" ++ nl) ;;
        leave (Exit 4)
    | Ok => ret tt
    end ;;
    owned <- file_owned_by_allowed script ;;
    when (negb owned)
      (logmsg ("script not owned by panel or root: " ++ script) ;;
       fprintf_stderr ("Script ownership invalid" ++ nl) ;;
       leave (Exit 5)) ;;
    envp <-
      (if strcmp cmd "autodeploy" =? 0 then
         match arg with
         | Some a => env_with "DOWNLOAD_URL=" a
         | None => ret envp_default
         end
       else
         match arg with
         | Some a => env_with "ET_PID_FILE=" a
         | None => ret envp_default
         end) ;;
    let exec_args := [script] in
    logmsg ("executing " ++ script) ;;
    emit (EvExecve script exec_args (env_of_array envp)) ;;
    match sys_execve sys script exec_args (env_of_array envp) with
    | Err errno =>
        logmsg ("execve failed: " ++ fmt_int errno) ;;
        emit (EvPerror "execve") ;;
        leave (Exit 6)
    | Ok => leave (Replaced script exec_args (env_of_array envp))
    end.

End Wrapper.

(** A run of the program from its start. *)
Definition run (sys : Sys) (argv : list string) : step outcome * state :=
  main sys argv init.

Definition result (sys : Sys) (argv : list string) : outcome :=
  match fst (run sys argv) with
  | Next o => o
  | Return o => o
  end.

Definition calls (sys : Sys) (argv : list string) : list event :=
  trace (snd (run sys argv)).

(** ** Reading a trace *)

Definition is_log (e : event) : bool :=
  match e with
  | EvFopen _ _ | EvLogWrite _ => true
  | _ => false
  end.

(** The provenance checks on the target script. *)
Definition is_check (e : event) : bool :=
  match e with
  | EvAccess _ | EvStat _ | EvGetpwnam _ => true
  | _ => false
  end.

(** The allocations that build the environment. *)
Definition is_alloc (e : event) : bool :=
  match e with
  | EvMalloc _ _ | EvStrdup _ _ => true
  | _ => false
  end.

Definition is_execve (e : event) : bool :=
  match e with
  | EvExecve _ _ _ => true
  | _ => false
  end.

(** The process transfers attempted: path, arguments, environment. *)
Fixpoint execs (t : list event) : list (string * list string * list string) :=
  match t with
  | [] => []
  | EvExecve p a e :: t' => (p, a, e) :: execs t'
  | _ :: t' => execs t'
  end.

(** The calls other than those of the logger. *)
Definition nolog (t : list event) : list event :=
  filter (fun e => negb (is_log e)) t.

(** A run that stopped before the provenance checks, the construction of
    the environment and the process transfer. *)
Definition stopped_early (t : list event) : Prop :=
  existsb is_check t = false /\ existsb is_alloc t = false /\ existsb is_execve t = false.

(** The command and the argument [main] reads from [argv]. *)
Definition command_of (argv : list string) : option string := nth_error argv 1.
Definition argument_of (argv : list string) : option string := nth_error argv 2.

(** The script [main] selects for a command. *)
Definition target_of (argv : list string) : option string :=
  match command_of argv with
  | Some cmd =>
      if String.eqb cmd "autodeploy" then Some AUTODEPLOY
      else if String.eqb cmd "memwatch" then Some MEMWATCH
      else None
  | None => None
  end.

(** The argument passes the validator [main] applies for the command. *)
Definition argument_ok (argv : list string) : bool :=
  match command_of argv, argument_of argv with
  | Some cmd, Some a =>
      if String.eqb cmd "autodeploy" then is_valid_url (Some a)
      else if String.eqb cmd "memwatch" then is_safe_path (Some a)
      else true
  | _, _ => true
  end.

(** The answer of the ownership check, called from a fresh state. *)
Definition owned (sys : Sys) (path : string) : bool :=
  match fst (file_owned_by_allowed sys path init) with
  | Next b => b
  | Return _ => false
  end.

(** Every allocation request succeeds. *)
Definition alloc_ok (sys : Sys) : Prop := forall n, sys_alloc sys n = true.

(** The same system with other answers from the log file and the clock. *)
Definition with_log (sys : Sys) (f : nat -> bool) (t : nat -> string) : Sys :=
  mkSys (sys_uid sys) (sys_euid sys) (sys_gid sys) (sys_environ sys) f t
    (sys_access_x sys) (sys_stat_uid sys) (sys_getpwnam sys) (sys_alloc sys)
    (sys_execve sys).

(** The same system started with another environment. *)
Definition with_environ (sys : Sys) (env : list string) : Sys :=
  mkSys (sys_uid sys) (sys_euid sys) (sys_gid sys) env (sys_fopen_log sys)
    (sys_time sys) (sys_access_x sys) (sys_stat_uid sys) (sys_getpwnam sys)
    (sys_alloc sys) (sys_execve sys).

(** What one call of [logmsg] adds to the trace. *)
Definition log_events (sys : Sys) (n : nat) (msg : string) : list event :=
  if sys_fopen_log sys n
  then [EvFopen LOGFILE true; EvLogWrite (sys_time sys n ++ ": " ++ msg ++ nl)]
  else [EvFopen LOGFILE false].

(** The uid the ownership check compares with, beside 0: the local
    variable [panel_uid] of [file_owned_by_allowed]. *)
Definition panel_uid (sys : Sys) : Z :=
  match sys_getpwnam sys "panel" with
  | Some pw_uid => pw_uid
  | None => uid_t_of (-1)
  end.

(** Every owner stat reports is the uid of a file: (uid_t)-1 is none, chown
    reads it as "leave the owner as it is", and a kernel that cannot
    represent an owner reports the overflow uid in its place. *)
Definition stat_reports_owners (sys : Sys) : Prop :=
  forall path, sys_stat_uid sys path <> Some (uid_t_of (-1)).

(** The environment the specification describes: PATH and LANG, preceded,
    when an argument is given, by the entry of the command. *)
Definition expected_env (argv : list string) : list string :=
  match command_of argv, argument_of argv with
  | Some cmd, Some a =>
      [(if String.eqb cmd "autodeploy" then "DOWNLOAD_URL=" else "ET_PID_FILE=") ++ a;
       "PATH=/usr/bin:/bin"; "LANG=C"]
  | _, _ => ["PATH=/usr/bin:/bin"; "LANG=C"]
  end.

(** What one call of [file_owned_by_allowed] adds to the trace. *)
Definition owner_events (sys : Sys) (path : string) : list event :=
  EvStat path ::
  match sys_stat_uid sys path with
  | Some _ => [EvGetpwnam "panel"]
  | None => []
  end.

(** ** The cascade of decisions of [main], for the properties of whole runs *)

(** The environment execve reads from the array [main] builds, by the
    answers to the third and fourth allocation requests. *)
Definition built_env (sys : Sys) (argv : list string) : list string :=
  match command_of argv, argument_of argv with
  | Some cmd, Some a =>
      ((if String.eqb cmd "autodeploy" then "DOWNLOAD_URL=" else "ET_PID_FILE=") ++ a) ::
      (if sys_alloc sys 2
       then "PATH=/usr/bin:/bin" :: (if sys_alloc sys 3 then ["LANG=C"] else [])
       else [])
  | _, _ => ["PATH=/usr/bin:/bin"; "LANG=C"]
  end.

(** The tests of [main] in their order: the outcome of the first one that
    stops the run, or the script when the run arrives at execve. *)
Definition cascade (sys : Sys) (argv : list string) : outcome + string :=
  match target_of argv with
  | None => inl (Exit 2)
  | Some script =>
      if negb (argument_ok argv) then inl (Exit 3)
      else
        match sys_access_x sys script with
        | Err _ => inl (Exit 4)
        | Ok =>
            if negb (owned sys script) then inl (Exit 5)
            else
              match argument_of argv with
              | Some _ =>
                  if negb (sys_alloc sys 0) then inl (Exit 10)
                  else if negb (sys_alloc sys 1) then inl Fault
                  else inr script
              | None => inr script
              end
        end
  end.

Definition verdict (sys : Sys) (argv : list string) : outcome :=
  match cascade sys argv with
  | inl o => o
  | inr script =>
      let env := built_env sys argv in
      match sys_execve sys script [script] env with
      | Ok => Replaced script [script] env
      | Err _ => Exit 6
      end
  end.

Definition attempts (sys : Sys) (argv : list string)
  : list (string * list string * list string) :=
  match cascade sys argv with
  | inl _ => []
  | inr script => [(script, [script], built_env sys argv)]
  end.

(** The number of calls of one kind in a trace. *)
Definition count (f : event -> bool) (t : list event) : nat :=
  List.length (filter f t).

Definition is_fopen (e : event) : bool :=
  match e with
  | EvFopen _ _ => true
  | _ => false
  end.

(** Output on the error stream: [fprintf(stderr, ...)] and [perror]. *)
Definition is_stderr (e : event) : bool :=
  match e with
  | EvStderr _ | EvPerror _ => true
  | _ => false
  end.

Definition is_access (e : event) : bool :=
  match e with
  | EvAccess _ => true
  | _ => false
  end.

Definition is_stat (e : event) : bool :=
  match e with
  | EvStat _ => true
  | _ => false
  end.

(** The log attempts of a run that has a command, by its outcome. *)
Definition log_attempts_of (o : outcome) : nat :=
  match o with
  | Exit c => if c =? 10 then 1 else if c =? 6 then 3 else 2
  | Replaced _ _ _ => 2
  | Fault => 1
  end.

(** The messages on the error stream, by the outcome of the run. *)
Definition stderr_messages_of (o : outcome) : nat :=
  match o with
  | Exit c => if c =? 10 then 0 else 1
  | _ => 0
  end.

(** The paths and names a call may carry: the log file, the script of the
    command, the account panel. *)
Definition fixed_name (argv : list string) (ev : event) : Prop :=
  match ev with
  | EvFopen p _ => p = LOGFILE
  | EvAccess p | EvStat p | EvExecve p _ _ => target_of argv = Some p
  | EvGetpwnam n => n = "panel"
  | _ => True
  end.

(** The message of the first [logmsg] of [main]: line 74. *)
Definition invocation_message (sys : Sys) (cmd : string) (arg : option string) : string :=
  "invoked by uid=" ++ fmt_int (as_int (sys_uid sys))
  ++ " euid=" ++ fmt_int (as_int (sys_euid sys))
  ++ " gid=" ++ fmt_int (as_int (sys_gid sys)) ++ " cmd=" ++ cmd
  ++ " arg=" ++ match arg with Some a => a | None => "(none)" end.

(** Two systems give the same answers to the calls [main] decides on. *)
Definition same_answers (sys1 sys2 : Sys) : Prop :=
  (forall p, sys_access_x sys1 p = sys_access_x sys2 p) /\
  (forall p, sys_stat_uid sys1 p = sys_stat_uid sys2 p) /\
  (forall n, sys_getpwnam sys1 n = sys_getpwnam sys2 n) /\
  (forall n, sys_alloc sys1 n = sys_alloc sys2 n) /\
  (forall p a e, sys_execve sys1 p a e = sys_execve sys2 p a e).

(** ** Sample systems, for concrete runs *)

(** Both scripts are executable and owned by root, the account panel has
    uid 995, the log opens, memory is available, execve succeeds. *)
Definition sys_ok : Sys :=
  mkSys 1000 0 1000 ["LD_PRELOAD=/tmp/x.so"; "PATH=/tmp"]
    (fun _ => true) (fun _ => "2024-01-01T00:00:00+0000")
    (fun _ => Ok) (fun _ => Some 0) (fun _ => Some 995)
    (fun _ => true) (fun _ _ _ => Ok).

(** As [sys_ok], but no script is executable (EACCES). *)
Definition sys_noexec : Sys :=
  mkSys 1000 0 1000 [] (fun _ => true) (fun _ => "2024-01-01T00:00:00+0000")
    (fun _ => Err 13) (fun _ => Some 0) (fun _ => Some 995)
    (fun _ => true) (fun _ _ _ => Ok).

(** As [sys_ok], but the scripts belong to uid 1000. *)
Definition sys_foreign : Sys :=
  mkSys 1000 0 1000 [] (fun _ => true) (fun _ => "2024-01-01T00:00:00+0000")
    (fun _ => Ok) (fun _ => Some 1000) (fun _ => Some 995)
    (fun _ => true) (fun _ _ _ => Ok).

(** There is no account panel, and the scripts belong to uid 4294967295. *)
Definition sys_nopanel : Sys :=
  mkSys 1000 0 1000 [] (fun _ => true) (fun _ => "2024-01-01T00:00:00+0000")
    (fun _ => Ok) (fun _ => Some 4294967295) (fun _ => None)
    (fun _ => true) (fun _ _ _ => Ok).

(** As [sys_ok] for the checks, but another caller, another environment,
    and a log that cannot be opened. *)
Definition sys_other : Sys :=
  mkSys 33 33 33 ["IFS=x"] (fun _ => false) (fun _ => "")
    (fun _ => Ok) (fun _ => Some 0) (fun _ => Some 995)
    (fun _ => true) (fun _ _ _ => Ok).

(** As [sys_ok], but stat fails on every path. *)
Definition sys_nostat : Sys :=
  mkSys 1000 0 1000 [] (fun _ => true) (fun _ => "2024-01-01T00:00:00+0000")
    (fun _ => Ok) (fun _ => None) (fun _ => Some 995)
    (fun _ => true) (fun _ _ _ => Ok).

(** As [sys_ok], but execve fails (ENOEXEC). *)
Definition sys_noexecve : Sys :=
  mkSys 1000 0 1000 [] (fun _ => true) (fun _ => "2024-01-01T00:00:00+0000")
    (fun _ => Ok) (fun _ => Some 0) (fun _ => Some 995)
    (fun _ => true) (fun _ _ _ => Err 8).

(** As [sys_ok], but no memory can be allocated. *)
Definition sys_nomem : Sys :=
  mkSys 1000 0 1000 [] (fun _ => true) (fun _ => "2024-01-01T00:00:00+0000")
    (fun _ => Ok) (fun _ => Some 0) (fun _ => Some 995)
    (fun _ => false) (fun _ _ _ => Ok).

(** As [sys_ok], but the second allocation request fails. *)
Definition sys_noarray : Sys :=
  mkSys 1000 0 1000 [] (fun _ => true) (fun _ => "2024-01-01T00:00:00+0000")
    (fun _ => Ok) (fun _ => Some 0) (fun _ => Some 995)
    (fun n => negb (Nat.eqb n 1)) (fun _ _ _ => Ok).

(** As [sys_ok], but the third allocation request fails. *)
Definition sys_nopath : Sys :=
  mkSys 1000 0 1000 [] (fun _ => true) (fun _ => "2024-01-01T00:00:00+0000")
    (fun _ => Ok) (fun _ => Some 0) (fun _ => Some 995)
    (fun n => negb (Nat.eqb n 2)) (fun _ _ _ => Ok).

(** ** Facts about the string functions *)

Lemma uchar_compare (c1 c2 : ascii) :
  (uchar c1 <? uchar c2)%N = false -> (uchar c2 <? uchar c1)%N = false -> c1 = c2.
Proof.
  unfold uchar. intros H1 H2.
  apply N.ltb_ge in H1. apply N.ltb_ge in H2.
  rewrite <- (ascii_N_embedding c1), <- (ascii_N_embedding c2).
  f_equal. lia.
Qed.

Lemma uchar_ltb_irrefl (c : ascii) : (uchar c <? uchar c)%N = false.
Proof. apply N.ltb_irrefl. Qed.

Lemma strcmp_refl (s : string) : strcmp s s = 0.
Proof.
  induction s as [|c t IH]; simpl; [reflexivity|].
  rewrite uchar_ltb_irrefl. exact IH.
Qed.

Lemma strcmp_eq (a b : string) : strcmp a b = 0 <-> a = b.
Proof.
  split; [|intros ->; apply strcmp_refl].
  revert b. induction a as [|c1 t1 IH]; intros [|c2 t2]; simpl; try discriminate.
  - reflexivity.
  - destruct (uchar c1 <? uchar c2)%N eqn:L1; [discriminate|].
    destruct (uchar c2 <? uchar c1)%N eqn:L2; [discriminate|].
    intros H. rewrite (uchar_compare _ _ L1 L2), (IH _ H). reflexivity.
Qed.

Lemma strcmp_eqb (a b : string) : (strcmp a b =? 0) = String.eqb a b.
Proof.
  destruct (String.eqb_spec a b) as [->|N].
  - rewrite strcmp_refl. reflexivity.
  - apply Z.eqb_neq. intros H. apply N. apply strcmp_eq. exact H.
Qed.

Lemma strncmp_begins (pre s : string) :
  strncmp s pre (String.length pre) = 0 <-> begins_with pre s.
Proof.
  revert s. induction pre as [|c2 t2 IH]; intros s; simpl.
  - split; [intros _; exists s; reflexivity | reflexivity].
  - destruct s as [|c1 t1].
    + split; [discriminate | intros [r Hr]; discriminate].
    + destruct (uchar c1 <? uchar c2)%N eqn:L1.
      { split; [discriminate|]. intros [r Hr]. simpl in Hr.
        injection Hr as -> _. rewrite uchar_ltb_irrefl in L1. discriminate. }
      destruct (uchar c2 <? uchar c1)%N eqn:L2.
      { split; [discriminate|]. intros [r Hr]. simpl in Hr.
        injection Hr as -> _. rewrite uchar_ltb_irrefl in L2. discriminate. }
      rewrite (uchar_compare _ _ L1 L2), IH.
      split; intros [r Hr]; exists r.
      * simpl. rewrite Hr. reflexivity.
      * simpl in Hr. injection Hr as Hr. exact Hr.
Qed.

Lemma begins_with_slash (pre s : string) :
  begins_with (String "/" pre) s -> char0 s = "/"%char.
Proof. intros [r ->]. reflexivity. Qed.

Lemma substring_all (s : string) : substring 0 (String.length s) s = s.
Proof. induction s as [|c t IH]; simpl; [reflexivity | rewrite IH; reflexivity]. Qed.

Lemma append_length (a b : string) :
  String.length (a ++ b) = (String.length a + String.length b)%nat.
Proof. induction a as [|c t IH]; simpl; [reflexivity | rewrite IH; reflexivity]. Qed.

(** The buffer of [env_with] is large enough: nothing is cut off. *)
Lemma snprintf_s_fits (key arg : string) :
  snprintf_s (strlen key + strlen arg + 1) key arg = key ++ arg.
Proof.
  unfold snprintf_s, strlen.
  replace (Z.to_nat (Z.of_nat (String.length key) + Z.of_nat (String.length arg) + 1 - 1))
    with (String.length (key ++ arg)) by (rewrite append_length; lia).
  apply substring_all.
Qed.

(** ** The grammars of the two validators *)

Lemma is_valid_url_spec (u : string) :
  is_valid_url (Some u) = true <->
  strlen u <= 2048 /\ (begins_with "http://" u \/ begins_with "https://" u).
Proof.
  unfold is_valid_url.
  rewrite <- (strncmp_begins "http://" u), <- (strncmp_begins "https://" u).
  change (String.length "http://") with 7%nat.
  change (String.length "https://") with 8%nat.
  generalize (strncmp u "http://" 7) (strncmp u "https://" 8) (strlen u).
  intros c1 c2 len.
  destruct (Z.gtb_spec len 2048); [intuition lia|].
  destruct (Z.eqb_spec c1 0); [intuition lia|].
  destruct (Z.eqb_spec c2 0); intuition (lia || discriminate).
Qed.

Lemma is_safe_path_spec (p : string) :
  is_safe_path (Some p) = true <->
  strlen p <= 4096 /\ char0 p = "/"%char /\
  (begins_with "/var/run/" p \/ begins_with "/var/tmp/" p \/ begins_with "/tmp/" p).
Proof.
  unfold is_safe_path.
  rewrite <- (strncmp_begins "/var/run/" p), <- (strncmp_begins "/var/tmp/" p),
    <- (strncmp_begins "/tmp/" p).
  change (String.length "/var/run/") with 9%nat.
  change (String.length "/var/tmp/") with 9%nat.
  change (String.length "/tmp/") with 5%nat.
  generalize (strncmp p "/var/run/" 9) (strncmp p "/var/tmp/" 9)
    (strncmp p "/tmp/" 5) (strlen p) (char0 p).
  intros c1 c2 c3 len c.
  destruct (Z.gtb_spec len 4096); [intuition lia|].
  destruct (Ascii.eqb_spec c "/"); cbn [negb]; [|intuition discriminate].
  destruct (Z.eqb_spec c1 0); [intuition lia|].
  destruct (Z.eqb_spec c2 0); [intuition lia|].
  destruct (Z.eqb_spec c3 0); intuition (lia || discriminate).
Qed.

(** X20: the test of the first character in [is_safe_path] never changes
    the answer: a path is accepted exactly when it is at most 4096 bytes
    long and begins with one of the three prefixes. *)
Lemma is_safe_path_prefixes (p : string) :
  is_safe_path (Some p) = true <->
  strlen p <= 4096 /\
  (begins_with "/var/run/" p \/ begins_with "/var/tmp/" p \/ begins_with "/tmp/" p).
Proof.
  rewrite is_safe_path_spec. split; [tauto|].
  intros [H D]. repeat split; try assumption.
  destruct D as [D|[D|D]]; eapply begins_with_slash; exact D.
Qed.

(** ** Lemmas on traces *)

Lemma logmsg_eq (sys : Sys) (msg : string) (s : state) :
  logmsg sys msg s =
  (Next tt, mkState (trace s ++ log_events sys (nfopen s) msg) (S (nfopen s)) (nalloc s)).
Proof. unfold logmsg, log_events. destruct (sys_fopen_log sys (nfopen s)); reflexivity. Qed.

Lemma execs_app (t1 t2 : list event) : execs (t1 ++ t2) = (execs t1 ++ execs t2)%list.
Proof.
  induction t1 as [|e t IH]; [reflexivity|].
  destruct e; simpl; rewrite IH; reflexivity.
Qed.

Lemma execs_log (sys : Sys) (n : nat) (msg : string) : execs (log_events sys n msg) = [].
Proof. unfold log_events. destruct (sys_fopen_log sys n); reflexivity. Qed.

Lemma nolog_app (t1 t2 : list event) : nolog (t1 ++ t2) = (nolog t1 ++ nolog t2)%list.
Proof. apply filter_app. Qed.

Lemma nolog_log (sys : Sys) (n : nat) (msg : string) : nolog (log_events sys n msg) = [].
Proof. unfold log_events. destruct (sys_fopen_log sys n); reflexivity. Qed.

Lemma check_log (sys : Sys) (n : nat) (msg : string) :
  existsb is_check (log_events sys n msg) = false.
Proof. unfold log_events. destruct (sys_fopen_log sys n); reflexivity. Qed.

Lemma alloc_log (sys : Sys) (n : nat) (msg : string) :
  existsb is_alloc (log_events sys n msg) = false.
Proof. unfold log_events. destruct (sys_fopen_log sys n); reflexivity. Qed.

Lemma execve_log (sys : Sys) (n : nat) (msg : string) :
  existsb is_execve (log_events sys n msg) = false.
Proof. unfold log_events. destruct (sys_fopen_log sys n); reflexivity. Qed.

Lemma owned_eq (sys : Sys) (path : string) :
  owned sys path =
  match sys_stat_uid sys path with
  | None => false
  | Some st_uid => (st_uid =? 0) || (st_uid =? panel_uid sys)
  end.
Proof.
  unfold owned, panel_uid, file_owned_by_allowed, stat, getpwnam, bind, ret, emit.
  cbn. destruct (sys_stat_uid sys path) as [u|]; [|reflexivity].
  cbn. destruct (_ || _); reflexivity.
Qed.

(** The check, called in any state: its answer and the calls it makes. *)
Lemma file_owned_by_allowed_run (sys : Sys) (path : string) (s : state) :
  file_owned_by_allowed sys path s =
  (Next (owned sys path),
   mkState (trace s ++ owner_events sys path) (nfopen s) (nalloc s)).
Proof.
  rewrite owned_eq.
  unfold owner_events, panel_uid, file_owned_by_allowed, stat, getpwnam, bind, ret, emit.
  cbn. destruct (sys_stat_uid sys path) as [u|]; [|reflexivity].
  cbn. rewrite <- app_assoc. destruct (_ || _); reflexivity.
Qed.

Lemma owned_spec (sys : Sys) (path : string) :
  owned sys path = true <->
  exists uid, sys_stat_uid sys path = Some uid /\ (uid = 0 \/ uid = panel_uid sys).
Proof.
  rewrite owned_eq. destruct (sys_stat_uid sys path) as [u|].
  - rewrite orb_true_iff, !Z.eqb_eq. split.
    + intros H. exists u. split; [reflexivity | exact H].
    + intros (uid & E & H). injection E as ->. exact H.
  - split; [discriminate | intros (uid & E & _); discriminate].
Qed.

Lemma execs_owner (sys : Sys) (path : string) : execs (owner_events sys path) = [].
Proof. unfold owner_events. destruct (sys_stat_uid sys path); reflexivity. Qed.

Lemma nolog_owner (sys : Sys) (path : string) :
  nolog (owner_events sys path) = owner_events sys path.
Proof. unfold owner_events. destruct (sys_stat_uid sys path); reflexivity. Qed.

Lemma alloc_owner (sys : Sys) (path : string) :
  existsb is_alloc (owner_events sys path) = false.
Proof. unfold owner_events. destruct (sys_stat_uid sys path); reflexivity. Qed.

Lemma execve_owner (sys : Sys) (path : string) :
  existsb is_execve (owner_events sys path) = false.
Proof. unfold owner_events. destruct (sys_stat_uid sys path); reflexivity. Qed.

Lemma argc_lt_2 (a0 cmd : string) (rest : list string) :
  (Z.of_nat (List.length (a0 :: cmd :: rest)) <? 2) = false.
Proof. apply Z.ltb_ge. simpl List.length. lia. Qed.

Lemma arg_read (a0 cmd : string) (rest : list string) :
  (if Z.of_nat (List.length (a0 :: cmd :: rest)) >=? 3
   then nth_error (a0 :: cmd :: rest) 2 else None) = nth_error rest 0.
Proof.
  destruct rest as [|a r]; simpl nth_error.
  - destruct (_ >=? 3); reflexivity.
  - replace (Z.of_nat (List.length (a0 :: cmd :: a :: r)) >=? 3) with true; [reflexivity|].
    symmetry. apply Z.geb_le. simpl List.length. lia.
Qed.

(** ** Symbolic execution of [main] *)

#[local] Arguments is_valid_url : simpl never.
#[local] Arguments is_safe_path : simpl never.
#[local] Arguments strcmp : simpl never.
#[local] Arguments String.eqb : simpl never.
#[local] Arguments fmt_int : simpl never.
#[local] Arguments as_int : simpl never.
#[local] Arguments snprintf_s : simpl never.
#[local] Arguments strlen : simpl never.
#[local] Arguments String.append : simpl never.
#[local] Arguments log_events : simpl never.
#[local] Arguments logmsg : simpl never.
#[local] Arguments file_owned_by_allowed : simpl never.
#[local] Arguments owner_events : simpl never.
#[local] Arguments owned : simpl never.
#[local] Arguments uid_t_of : simpl never.
#[local] Arguments Z.mul : simpl never.
#[local] Arguments Z.add : simpl never.
#[local] Arguments Z.eqb : simpl never.

(** Run the straight-line code up to the next test. *)
Ltac advance :=
  cbn; repeat (first [rewrite logmsg_eq | rewrite file_owned_by_allowed_run]; cbn).

(** Enter [main] on an [argv] that holds a command. *)
Ltac enter_main :=
  unfold result, calls, run, main;
  rewrite ?argc_lt_2, ?arg_read, ?strcmp_eqb;
  unfold env_with, access_x, fprintf_stderr, when, bind, ret, leave, emit,
    malloc, strdup, init;
  advance.

(** Decide the next test of the run on an answer of the system or of a
    validator. *)
Ltac branch :=
  match goal with
  | |- context [String.eqb ?a ?b] => destruct (String.eqb_spec a b)
  | |- context [is_valid_url ?a] => destruct (is_valid_url a) eqn:?
  | |- context [is_safe_path ?a] => destruct (is_safe_path a) eqn:?
  | |- context [sys_access_x ?s ?p] => destruct (sys_access_x s p) eqn:?
  | |- context [owned ?s ?p] => destruct (owned s p) eqn:?
  | |- context [sys_alloc ?s ?n] => destruct (sys_alloc s n) eqn:?
  | |- context [sys_execve ?s ?p ?a ?e] => destruct (sys_execve s p a e) eqn:?
  end; advance.

Ltac run_main := enter_main; repeat branch.

(** Split a trace property along the appends of the trace. *)
Ltac trace_facts :=
  unfold stopped_early;
  rewrite ?existsb_app, ?execs_app, ?check_log, ?alloc_log, ?execve_log, ?execs_log,
    ?execs_owner, ?alloc_owner, ?execve_owner;
  cbn.

(** ** The command *)

(** C6: for a command name that is neither autodeploy nor memwatch, a
    missing command included, the program exits with code 2 and reaches
    neither the provenance checks, nor the construction of the
    environment, nor the process transfer. *)
Theorem unknown_command_exits_2 (sys : Sys) (argv : list string) :
  command_of argv <> Some "autodeploy" ->
  command_of argv <> Some "memwatch" ->
  result sys argv = Exit 2 /\ stopped_early (calls sys argv).
Proof.
  intros N1 N2. destruct argv as [|a0 [|cmd rest]].
  - split; [reflexivity | repeat split].
  - split; [reflexivity | repeat split].
  - unfold command_of in N1, N2. simpl in N1, N2. enter_main.
    destruct (String.eqb_spec cmd "autodeploy") as [->|_]; [now elim N1|].
    destruct (String.eqb_spec cmd "memwatch") as [->|_]; [now elim N2|].
    advance. trace_facts. auto.
Qed.

Lemma unknown_command_exits_2_witness :
  result sys_ok ["panel_wrapper"; "reboot"; "now"] = Exit 2 /\
  stopped_early (calls sys_ok ["panel_wrapper"; "reboot"; "now"]).
Proof.
  apply unknown_command_exits_2; unfold command_of; simpl; discriminate.
Defined.

(** ** The argument *)

(** Finish a branch of a run whose exit code is not the one looked for. *)
Ltac other_exit :=
  split; [split; [discriminate | intros (? & ? & ?); congruence] | discriminate].

(** C3: for autodeploy an absent argument is valid; a present one is valid
    exactly when it is at most 2048 bytes long and begins with http:// or
    https://, in this case of the letters; the program exits with code 3 exactly on a present argument
    that is not valid, and then before any script check and any
    construction of the environment. *)
Theorem autodeploy_argument_grammar (sys : Sys) (argv : list string) :
  command_of argv = Some "autodeploy" ->
  (result sys argv = Exit 3 <->
   exists u, argument_of argv = Some u /\
     ~ (strlen u <= 2048 /\ (begins_with "http://" u \/ begins_with "https://" u)))
  /\ (result sys argv = Exit 3 -> stopped_early (calls sys argv))
  /\ is_valid_url (Some "HTTP://example.com/") = false.
Proof.
  intros C.
  match goal with
  | |- ?A /\ ?B /\ _ => cut (A /\ B);
      [intros [? ?]; split; [assumption | split; [assumption | reflexivity]]|]
  end.
  destruct argv as [|a0 [|cmd rest]]; try discriminate C.
  unfold command_of in C. simpl in C. injection C as ->.
  unfold argument_of. simpl nth_error.
  destruct rest as [|u r]; enter_main.
  - destruct (String.eqb_spec "autodeploy" "autodeploy") as [_|N]; [|now elim N].
    advance. repeat branch; other_exit.
  - destruct (String.eqb_spec "autodeploy" "autodeploy") as [_|N]; [|now elim N].
    advance. destruct (is_valid_url (Some u)) eqn:V; advance.
    + apply is_valid_url_spec in V.
      repeat branch;
        (split; [split; [discriminate | intros (? & E & G); injection E as <-; now elim G]
                | discriminate]).
    + split; [split; [intros _|reflexivity] | intros _; trace_facts; auto].
      exists u. split; [reflexivity|]. intros G. apply is_valid_url_spec in G. congruence.
Qed.

Lemma autodeploy_argument_grammar_witness :
  (result sys_ok ["panel_wrapper"; "autodeploy"; "ftp://x"] = Exit 3 <->
   exists u, argument_of ["panel_wrapper"; "autodeploy"; "ftp://x"] = Some u /\
     ~ (strlen u <= 2048 /\ (begins_with "http://" u \/ begins_with "https://" u)))
  /\ (result sys_ok ["panel_wrapper"; "autodeploy"; "ftp://x"] = Exit 3 ->
      stopped_early (calls sys_ok ["panel_wrapper"; "autodeploy"; "ftp://x"]))
  /\ is_valid_url (Some "HTTP://example.com/") = false.
Proof. apply autodeploy_argument_grammar. reflexivity. Defined.

(** C4: for memwatch a present argument is valid exactly when it is at most
    4096 bytes long, starts with '/', and begins with /var/run/, /var/tmp/
    or /tmp/; the match is on the prefix only, so a path with '..' segments
    under an allowed prefix is valid; the program exits with code 3 exactly
    on a present argument that is not valid, and then no script is checked
    or invoked. *)
Theorem memwatch_argument_grammar (sys : Sys) (argv : list string) :
  command_of argv = Some "memwatch" ->
  (result sys argv = Exit 3 <->
   exists p, argument_of argv = Some p /\
     ~ (strlen p <= 4096 /\ char0 p = "/"%char /\
        (begins_with "/var/run/" p \/ begins_with "/var/tmp/" p \/ begins_with "/tmp/" p)))
  /\ (result sys argv = Exit 3 -> stopped_early (calls sys argv))
  /\ is_safe_path (Some "/tmp/../etc/shadow") = true.
Proof.
  intros C. split; [|split; [|reflexivity]]; revert C.
  all: intros C; destruct argv as [|a0 [|cmd rest]]; try discriminate C.
  all: unfold command_of in C; simpl in C; injection C as ->.
  all: unfold argument_of; simpl nth_error.
  all: destruct rest as [|u r]; enter_main.
  all: destruct (String.eqb_spec "memwatch" "autodeploy") as [N|_]; [discriminate N|].
  all: destruct (String.eqb_spec "memwatch" "memwatch") as [_|N]; [|now elim N].
  all: advance.
  - repeat branch; split; try discriminate; intros (? & ? & ?); congruence.
  - destruct (is_safe_path (Some u)) eqn:V; advance.
    + apply is_safe_path_spec in V.
      repeat branch;
        (split; [discriminate | intros (? & E & G); injection E as <-; now elim G]).
    + split; [intros _|reflexivity].
      exists u. split; [reflexivity|]. intros G. apply is_safe_path_spec in G. congruence.
  - repeat branch; discriminate.
  - destruct (is_safe_path (Some u)) eqn:V; advance.
    + repeat branch; discriminate.
    + intros _. trace_facts. auto.
Qed.

Lemma memwatch_argument_grammar_witness :
  (result sys_ok ["panel_wrapper"; "memwatch"; "/etc/passwd"] = Exit 3 <->
   exists p, argument_of ["panel_wrapper"; "memwatch"; "/etc/passwd"] = Some p /\
     ~ (strlen p <= 4096 /\ char0 p = "/"%char /\
        (begins_with "/var/run/" p \/ begins_with "/var/tmp/" p \/ begins_with "/tmp/" p)))
  /\ (result sys_ok ["panel_wrapper"; "memwatch"; "/etc/passwd"] = Exit 3 ->
      stopped_early (calls sys_ok ["panel_wrapper"; "memwatch"; "/etc/passwd"]))
  /\ is_safe_path (Some "/tmp/../etc/shadow") = true.
Proof. apply memwatch_argument_grammar. reflexivity. Defined.

(** ** The provenance checks *)

(** C7, as stated, fails: with a script that is not executable and an
    argument that is not valid, the program exits with code 3, not 4. *)
Lemma nonexecutable_exit_4_refuted :
  target_of ["panel_wrapper"; "autodeploy"; "ftp://x"] = Some AUTODEPLOY /\
  sys_access_x sys_noexec AUTODEPLOY = Err 13 /\
  result sys_noexec ["panel_wrapper"; "autodeploy"; "ftp://x"] = Exit 3 /\
  ~ (forall sys argv script,
       target_of argv = Some script ->
       sys_access_x sys script <> Ok ->
       result sys argv = Exit 4).
Proof.
  split; [reflexivity|]. split; [reflexivity|]. split; [reflexivity|].
  intros H.
  specialize (H sys_noexec ["panel_wrapper"; "autodeploy"; "ftp://x"] AUTODEPLOY eq_refl).
  assert (N : sys_access_x sys_noexec AUTODEPLOY <> Ok) by discriminate.
  specialize (H N). vm_compute in H. discriminate H.
Qed.

(** C7, amended: for a recognised command whose script is not executable,
    the program exits with code 4 when the argument is absent or valid, and
    with code 3 when the argument is present and not valid; in both cases
    no script is invoked. *)
Theorem nonexecutable_target (sys : Sys) (argv : list string) (script : string) :
  target_of argv = Some script ->
  sys_access_x sys script <> Ok ->
  result sys argv = (if argument_ok argv then Exit 4 else Exit 3) /\
  execs (calls sys argv) = [].
Proof.
  intros T X. destruct argv as [|a0 [|cmd rest]]; try discriminate T.
  unfold target_of, command_of in T. unfold argument_ok, command_of, argument_of.
  simpl nth_error in *. revert T. enter_main.
  destruct (String.eqb_spec cmd "autodeploy") as [->|N1];
    [|destruct (String.eqb_spec cmd "memwatch") as [->|N2]];
    intros T; try discriminate T; injection T as <-; advance.
  - destruct rest as [|u r]; advance.
    + destruct (sys_access_x sys AUTODEPLOY); [now elim X|]. advance. trace_facts. auto.
    + destruct (is_valid_url (Some u)); advance; [|trace_facts; auto].
      destruct (sys_access_x sys AUTODEPLOY); [now elim X|]. advance. trace_facts. auto.
  - destruct rest as [|u r]; advance.
    + destruct (sys_access_x sys MEMWATCH); [now elim X|]. advance. trace_facts. auto.
    + destruct (is_safe_path (Some u)); advance; [|trace_facts; auto].
      destruct (sys_access_x sys MEMWATCH); [now elim X|]. advance. trace_facts. auto.
Qed.

Lemma nonexecutable_target_witness :
  result sys_noexec ["panel_wrapper"; "memwatch"; "/tmp/et.pid"] =
    (if argument_ok ["panel_wrapper"; "memwatch"; "/tmp/et.pid"] then Exit 4 else Exit 3) /\
  execs (calls sys_noexec ["panel_wrapper"; "memwatch"; "/tmp/et.pid"]) = [].
Proof.
  apply (nonexecutable_target sys_noexec ["panel_wrapper"; "memwatch"; "/tmp/et.pid"] MEMWATCH).
  - reflexivity.
  - simpl. discriminate.
Defined.

(** C5: for the owners stat reports, the ownership check accepts the script
    exactly when its owning uid is 0 or is the uid of the account panel,
    looked up by name at each call; the program exits with code 5 exactly
    when it reaches the check and the check fails, and then nothing is
    allocated and no script is invoked. *)
Theorem ownership_check (sys : Sys) (argv : list string) :
  stat_reports_owners sys ->
  (forall path,
     owned sys path = true <->
     exists uid, sys_stat_uid sys path = Some uid /\
       (uid = 0 \/ sys_getpwnam sys "panel" = Some uid))
  /\ (forall path s uid,
        sys_stat_uid sys path = Some uid ->
        file_owned_by_allowed sys path s =
        (Next (owned sys path),
         mkState (trace s ++ [EvStat path; EvGetpwnam "panel"]) (nfopen s) (nalloc s)))
  /\ (result sys argv = Exit 5 <->
      exists script, target_of argv = Some script /\ argument_ok argv = true /\
        sys_access_x sys script = Ok /\ owned sys script = false)
  /\ (result sys argv = Exit 5 ->
      existsb is_alloc (calls sys argv) = false /\ execs (calls sys argv) = []).
Proof.
  intros W. split.
  { intros path. rewrite owned_spec. unfold panel_uid.
    split; intros (uid & E & H); exists uid; (split; [exact E|]).
    - destruct H as [H|H]; [left; exact H | right].
      destruct (sys_getpwnam sys "panel") as [pw_uid|].
      + rewrite H. reflexivity.
      + exfalso. apply (W path). rewrite E, H. reflexivity.
    - destruct H as [H|H]; [left; exact H | right].
      rewrite H. reflexivity. }
  split.
  { intros path s uid E. rewrite file_owned_by_allowed_run.
    unfold owner_events. rewrite E. reflexivity. }
  destruct argv as [|a0 [|cmd rest]].
  1, 2: split; [split; [discriminate | intros (? & T & _); discriminate T] | discriminate].
  unfold target_of, argument_ok, command_of, argument_of. simpl nth_error.
  enter_main.
  destruct (String.eqb_spec cmd "autodeploy") as [->|N1];
    [|destruct (String.eqb_spec cmd "memwatch") as [->|N2]]; advance.
  3: split; [split; [discriminate | intros (? & T & _); discriminate T] | discriminate].
  all: destruct rest as [|u r]; advance.
  all: try match goal with
       | |- context [is_valid_url ?a] => destruct (is_valid_url a) eqn:V; advance
       | |- context [is_safe_path ?a] => destruct (is_safe_path a) eqn:V; advance
       end.
  all: try (split; [split; [discriminate | intros (? & _ & A & _); discriminate A]
                   | discriminate]).
  all: match goal with
       | |- context [sys_access_x ?s ?p] => destruct (sys_access_x s p) eqn:X; advance
       end.
  all: try (split; [split; [discriminate
                           | intros (? & T & _ & A & _); injection T as <-; congruence]
                   | discriminate]).
  all: match goal with
       | |- context [owned ?s ?p] => destruct (owned s p) eqn:O; advance
       end.
  all: try (split; [split; [intros _; eexists; repeat split; eassumption
                           | reflexivity]
                   | intros _; trace_facts; auto]).
  all: repeat branch;
       (split; [split; [discriminate
                       | intros (? & T & _ & _ & A); injection T as <-; congruence]
               | discriminate]).
Qed.

Lemma ownership_check_witness :
  (forall path,
     owned sys_foreign path = true <->
     exists uid, sys_stat_uid sys_foreign path = Some uid /\
       (uid = 0 \/ sys_getpwnam sys_foreign "panel" = Some uid))
  /\ (forall path s uid,
        sys_stat_uid sys_foreign path = Some uid ->
        file_owned_by_allowed sys_foreign path s =
        (Next (owned sys_foreign path),
         mkState (trace s ++ [EvStat path; EvGetpwnam "panel"]) (nfopen s) (nalloc s)))
  /\ (result sys_foreign ["panel_wrapper"; "memwatch"; "/var/run/et.pid"] = Exit 5 <->
      exists script,
        target_of ["panel_wrapper"; "memwatch"; "/var/run/et.pid"] = Some script /\
        argument_ok ["panel_wrapper"; "memwatch"; "/var/run/et.pid"] = true /\
        sys_access_x sys_foreign script = Ok /\ owned sys_foreign script = false)
  /\ (result sys_foreign ["panel_wrapper"; "memwatch"; "/var/run/et.pid"] = Exit 5 ->
      existsb is_alloc (calls sys_foreign ["panel_wrapper"; "memwatch"; "/var/run/et.pid"])
        = false /\
      execs (calls sys_foreign ["panel_wrapper"; "memwatch"; "/var/run/et.pid"]) = []).
Proof.
  apply ownership_check. intros path. simpl. discriminate.
Defined.

(** C9: when the lookup of the account panel fails, the ownership check
    reports no error: it answers as usual, and accepts the script exactly
    when stat gives an owning uid that is 0 or (uid_t)-1, which is
    4294967295. *)
Theorem failed_lookup_sentinel (sys : Sys) (path : string) (s : state) :
  sys_getpwnam sys "panel" = None ->
  (exists b, fst (file_owned_by_allowed sys path s) = Next b) /\
  (fst (file_owned_by_allowed sys path s) = Next true <->
   sys_stat_uid sys path = Some 0 \/ sys_stat_uid sys path = Some (uid_t_of (-1))) /\
  uid_t_of (-1) = 4294967295.
Proof.
  intros P. rewrite file_owned_by_allowed_run. cbn [fst].
  split; [eexists; reflexivity|]. split; [|reflexivity].
  rewrite owned_eq. unfold panel_uid. rewrite P.
  destruct (sys_stat_uid sys path) as [u|].
  - split.
    + intros H. injection H as H. apply orb_true_iff in H.
      rewrite !Z.eqb_eq in H. destruct H as [->| ->]; auto.
    + intros [H|H]; injection H as ->; reflexivity.
  - split; [discriminate | intros [H|H]; discriminate H].
Qed.

Lemma failed_lookup_sentinel_witness :
  (exists b, fst (file_owned_by_allowed sys_nopanel AUTODEPLOY init) = Next b) /\
  (fst (file_owned_by_allowed sys_nopanel AUTODEPLOY init) = Next true <->
   sys_stat_uid sys_nopanel AUTODEPLOY = Some 0 \/
   sys_stat_uid sys_nopanel AUTODEPLOY = Some (uid_t_of (-1))) /\
  uid_t_of (-1) = 4294967295.
Proof. apply failed_lookup_sentinel. reflexivity. Defined.

(** ** The process transfer *)

(** Every process transfer a run attempts: the path is the script of the
    command, the only argument is that path, and the environment is a
    prefix of the expected one, the whole of it when no allocation fails. *)
Lemma exec_inv (sys : Sys) (argv : list string) (p : string) (a e : list string) :
  In (p, a, e) (execs (calls sys argv)) ->
  target_of argv = Some p /\ a = [p] /\
  (exists k, e = firstn k (expected_env argv)) /\
  (alloc_ok sys -> e = expected_env argv).
Proof.
  destruct argv as [|a0 [|cmd rest]]; [intros H; elim H | intros H; elim H |].
  unfold target_of, expected_env, command_of, argument_of. simpl nth_error.
  destruct rest as [|u r]; run_main; trace_facts.
  all: rewrite ?snprintf_s_fits.
  all: intros H; try (elim H; fail).
  all: destruct H as [E|[]]; injection E as <- <- <-.
  all: split; [reflexivity|]; split; [reflexivity|]; split;
    [ first [exists 3%nat; reflexivity | exists 2%nat; reflexivity
            | exists 1%nat; reflexivity]
    | intros A;
      repeat match goal with
        | H : sys_alloc _ _ = false |- _ => rewrite A in H; discriminate H
        end;
      reflexivity ].
Qed.

(** A run that passes every check, with memory available, attempts one
    process transfer: that of the script, with the expected environment. *)
Lemma exec_reached (sys : Sys) (argv : list string) (script : string) :
  target_of argv = Some script ->
  argument_ok argv = true ->
  sys_access_x sys script = Ok ->
  owned sys script = true ->
  alloc_ok sys ->
  execs (calls sys argv) = [(script, [script], expected_env argv)].
Proof.
  destruct argv as [|a0 [|cmd rest]]; try discriminate.
  unfold target_of, argument_ok, expected_env, command_of, argument_of.
  simpl nth_error. intros T V X O A. revert T V.
  destruct rest as [|u r]; enter_main.
  all: destruct (String.eqb_spec cmd "autodeploy") as [->|N1];
    [|destruct (String.eqb_spec cmd "memwatch") as [->|N2]];
    intros T V; try discriminate T; injection T as <-; advance.
  all: try match type of V with true = true => clear V end.
  all: repeat (first [rewrite V | rewrite X | rewrite O | rewrite A
                     | rewrite snprintf_s_fits]; advance).
  all: match goal with
       | |- context [sys_execve ?s ?p ?a ?e] => destruct (sys_execve s p a e)
       end; advance; trace_facts; reflexivity.
Qed.

(** A run that ends in a replaced process image attempted that transfer. *)
Lemma replaced_was_attempted (sys : Sys) (argv : list string)
    (p : string) (a e : list string) :
  result sys argv = Replaced p a e -> In (p, a, e) (execs (calls sys argv)).
Proof.
  destruct argv as [|a0 [|cmd rest]]; try discriminate.
  destruct rest as [|u r]; run_main; trace_facts.
  all: intros H; try discriminate H.
  all: injection H as <- <- <-; left; reflexivity.
Qed.

(** C1: the path handed to execve is one of two constants, chosen by the
    command name alone: two runs with the same command, whatever their
    arguments and their systems, hand the same path to execve. *)
Theorem exec_path_fixed (sys1 sys2 : Sys) (argv1 argv2 : list string)
    (p1 p2 : string) (a1 e1 a2 e2 : list string) :
  command_of argv1 = command_of argv2 ->
  In (p1, a1, e1) (execs (calls sys1 argv1)) ->
  In (p2, a2, e2) (execs (calls sys2 argv2)) ->
  p1 = p2 /\
  ((command_of argv1 = Some "autodeploy" /\ p1 = "/opt/panel/scripts/autodeploy.sh") \/
   (command_of argv1 = Some "memwatch" /\ p1 = "/opt/panel/scripts/memwatch.sh")).
Proof.
  intros C H1 H2.
  apply exec_inv in H1. destruct H1 as (T1 & _).
  apply exec_inv in H2. destruct H2 as (T2 & _).
  unfold target_of in T1, T2. rewrite <- C in T2.
  destruct (command_of argv1) as [cmd|]; [|discriminate T1].
  destruct (String.eqb_spec cmd "autodeploy") as [->|N1];
    [|destruct (String.eqb_spec cmd "memwatch") as [->|N2]].
  - injection T1 as <-. injection T2 as <-. split; [reflexivity | left; split; reflexivity].
  - injection T1 as <-. injection T2 as <-. split; [reflexivity | right; split; reflexivity].
  - discriminate T1.
Qed.

Lemma exec_path_fixed_witness :
  "/opt/panel/scripts/autodeploy.sh" = "/opt/panel/scripts/autodeploy.sh" /\
  ((command_of ["panel_wrapper"; "autodeploy"; "https://example.com/a.tgz"]
      = Some "autodeploy" /\
    "/opt/panel/scripts/autodeploy.sh" = "/opt/panel/scripts/autodeploy.sh") \/
   (command_of ["panel_wrapper"; "autodeploy"; "https://example.com/a.tgz"]
      = Some "memwatch" /\
    "/opt/panel/scripts/autodeploy.sh" = "/opt/panel/scripts/memwatch.sh")).
Proof.
  apply (exec_path_fixed sys_ok sys_nopanel
           ["panel_wrapper"; "autodeploy"; "https://example.com/a.tgz"]
           ["panel_wrapper"; "autodeploy"; "http://other.example/b.tgz"; "extra"]
           _ _
           ["/opt/panel/scripts/autodeploy.sh"]
           ["DOWNLOAD_URL=https://example.com/a.tgz"; "PATH=/usr/bin:/bin"; "LANG=C"]
           ["/opt/panel/scripts/autodeploy.sh"]
           ["DOWNLOAD_URL=http://other.example/b.tgz"; "PATH=/usr/bin:/bin"; "LANG=C"]).
  - reflexivity.
  - vm_compute. left. reflexivity.
  - vm_compute. left. reflexivity.
Defined.

(** ** The environment *)

Lemma expected_env_length (argv : list string) :
  (List.length (expected_env argv) <= 3)%nat.
Proof.
  unfold expected_env.
  destruct (command_of argv); [destruct (argument_of argv)|]; simpl; lia.
Qed.

(** When no allocation fails, the environment handed to execve on an
    invocation that passes every check is PATH=/usr/bin:/bin and LANG=C,
    preceded, exactly when an argument was given, by DOWNLOAD_URL=<arg>
    for autodeploy and ET_PID_FILE=<arg> for memwatch, the argument being
    copied as it is; in every run the environment handed to execve has at
    most 3 entries, all of them among those; and the environment of the
    caller has no influence on the run. *)
Theorem sanitized_environment (sys : Sys) (argv : list string) :
  (forall script,
     target_of argv = Some script ->
     argument_ok argv = true ->
     sys_access_x sys script = Ok ->
     owned sys script = true ->
     alloc_ok sys ->
     execs (calls sys argv) = [(script, [script], expected_env argv)])
  /\ (forall p a e,
        In (p, a, e) (execs (calls sys argv)) ->
        (List.length e <= 3)%nat /\
        (forall v, In v e -> In v (expected_env argv)))
  /\ (forall cmd,
        command_of argv = Some cmd ->
        expected_env argv =
        match argument_of argv with
        | Some arg =>
            [(if String.eqb cmd "autodeploy" then "DOWNLOAD_URL=" else "ET_PID_FILE=") ++ arg;
             "PATH=/usr/bin:/bin"; "LANG=C"]
        | None => ["PATH=/usr/bin:/bin"; "LANG=C"]
        end)
  /\ (forall env,
        result (with_environ sys env) argv = result sys argv /\
        calls (with_environ sys env) argv = calls sys argv).
Proof.
  split; [intros script; apply exec_reached|].
  split.
  { intros p a e H. apply exec_inv in H. destruct H as (_ & _ & (k & ->) & _).
    split.
    - rewrite length_firstn. pose proof (expected_env_length argv). lia.
    - intros v Hv. revert Hv. generalize (expected_env argv). intros l.
      revert k. induction l as [|x l IH]; intros [|k]; simpl; try tauto.
      intros [->|Hv]; [left; reflexivity | right; exact (IH k Hv)]. }
  split.
  { intros cmd C. unfold expected_env. rewrite C.
    destruct (argument_of argv); reflexivity. }
  intros env. split; reflexivity.
Qed.

Lemma sanitized_environment_witness :
  execs (calls sys_ok ["panel_wrapper"; "autodeploy"; "https://example.com/a.tgz"]) =
  [("/opt/panel/scripts/autodeploy.sh", ["/opt/panel/scripts/autodeploy.sh"],
    ["DOWNLOAD_URL=https://example.com/a.tgz"; "PATH=/usr/bin:/bin"; "LANG=C"])].
Proof.
  apply (proj1 (sanitized_environment sys_ok
                  ["panel_wrapper"; "autodeploy"; "https://example.com/a.tgz"])
           AUTODEPLOY).
  - reflexivity.
  - reflexivity.
  - reflexivity.
  - reflexivity.
  - intros n. reflexivity.
Defined.

(** C2, where the code departs from it: the two strdup calls of lines
    122-123 and 136-137 are not checked, unlike the malloc of lines 118 and
    132.  On a fully valid invocation of memwatch with /tmp/et.pid, in a
    system whose third allocation request (the copy of PATH) fails, the
    process image is replaced with an environment that holds the entry
    ET_PID_FILE alone: neither PATH nor LANG. *)
Theorem environment_cut_by_failed_strdup :
  let argv := ["panel_wrapper"; "memwatch"; "/tmp/et.pid"] in
  target_of argv = Some MEMWATCH /\
  argument_ok argv = true /\
  sys_access_x sys_nopath MEMWATCH = Ok /\
  owned sys_nopath MEMWATCH = true /\
  sys_alloc sys_nopath 0 = true /\ sys_alloc sys_nopath 1 = true /\
  sys_alloc sys_nopath 2 = false /\
  result sys_nopath argv = Replaced MEMWATCH [MEMWATCH] ["ET_PID_FILE=/tmp/et.pid"] /\
  execs (calls sys_nopath argv) = [(MEMWATCH, [MEMWATCH], ["ET_PID_FILE=/tmp/et.pid"])] /\
  ["ET_PID_FILE=/tmp/et.pid"] <> expected_env argv.
Proof.
  cbv zeta. repeat split; try reflexivity. discriminate.
Qed.

(** ** The audit log *)

Lemma owned_with_log (sys : Sys) (f : nat -> bool) (t : nat -> string) (path : string) :
  owned (with_log sys f t) path = owned sys path.
Proof. reflexivity. Qed.

Lemma owner_events_with_log (sys : Sys) f t (path : string) :
  owner_events (with_log sys f t) path = owner_events sys path.
Proof. reflexivity. Qed.

(** C8: a failure to open the log is not escalated: [logmsg] returns to
    its caller in every case, and the exit code or process transfer of the
    run, its calls other than those of the logger, and the process
    transfers it attempts are the same whatever answers the log file and
    the clock give. *)
Theorem log_failure_not_escalated (sys : Sys) (f : nat -> bool) (t : nat -> string)
    (argv : list string) :
  (forall msg s, fst (logmsg sys msg s) = Next tt) /\
  result (with_log sys f t) argv = result sys argv /\
  nolog (calls (with_log sys f t) argv) = nolog (calls sys argv) /\
  execs (calls (with_log sys f t) argv) = execs (calls sys argv).
Proof.
  split; [intros msg s; rewrite logmsg_eq; reflexivity|].
  destruct argv as [|a0 [|cmd rest]]; [repeat split | repeat split |].
  destruct rest as [|u r]; enter_main.
  all: repeat (branch; rewrite ?owned_with_log, ?owner_events_with_log).
  all: rewrite ?nolog_app, ?execs_app, ?nolog_log, ?execs_log; auto.
Qed.

(** ** Further arguments *)

(** [main] reads of [argv] the command and the argument only, once a
    command is present. *)
Lemma run_reads_two (sys : Sys) (a0 b0 cmd : string) (rest1 rest2 : list string) :
  nth_error rest1 0 = nth_error rest2 0 ->
  run sys (a0 :: cmd :: rest1) = run sys (b0 :: cmd :: rest2).
Proof.
  intros E. unfold run, main.
  rewrite !argc_lt_2, !arg_read, E. reflexivity.
Qed.

(** C10: arguments after the second are ignored: two invocations that
    agree on the command and on the argument have the same exit code or
    process transfer and attempt the same process transfers, with the same
    path, arguments and environment; when a command is present they make
    the same calls altogether. *)
Theorem extra_arguments_ignored (sys : Sys) (argv1 argv2 : list string) :
  command_of argv1 = command_of argv2 ->
  argument_of argv1 = argument_of argv2 ->
  result sys argv1 = result sys argv2 /\
  execs (calls sys argv1) = execs (calls sys argv2) /\
  (command_of argv1 <> None -> calls sys argv1 = calls sys argv2).
Proof.
  intros C A.
  destruct argv1 as [|a0 [|c1 r1]]; destruct argv2 as [|b0 [|c2 r2]];
    try discriminate C;
    try (split; [reflexivity | split; [reflexivity | intros N; now elim N]]).
  unfold command_of in C. simpl in C. injection C as <-.
  unfold argument_of in A. simpl in A.
  unfold result, calls. rewrite (run_reads_two sys a0 b0 c1 r1 r2 A).
  repeat split.
Qed.

Lemma extra_arguments_ignored_witness :
  result sys_ok ["panel_wrapper"; "memwatch"; "/tmp/et.pid"; "--force"; "x"] =
  result sys_ok ["panel_wrapper"; "memwatch"; "/tmp/et.pid"] /\
  execs (calls sys_ok ["panel_wrapper"; "memwatch"; "/tmp/et.pid"; "--force"; "x"]) =
  execs (calls sys_ok ["panel_wrapper"; "memwatch"; "/tmp/et.pid"]) /\
  (command_of ["panel_wrapper"; "memwatch"; "/tmp/et.pid"; "--force"; "x"] <> None ->
   calls sys_ok ["panel_wrapper"; "memwatch"; "/tmp/et.pid"; "--force"; "x"] =
   calls sys_ok ["panel_wrapper"; "memwatch"; "/tmp/et.pid"]).
Proof. apply extra_arguments_ignored; reflexivity. Defined.

(** ** The decisions of [main] in their order *)

(** The outcome of a run and the process transfers it attempts are those of
    the cascade. *)
Lemma result_verdict (sys : Sys) (argv : list string) :
  result sys argv = verdict sys argv /\ execs (calls sys argv) = attempts sys argv.
Proof.
  destruct argv as [|a0 [|cmd rest]]; [split; reflexivity | split; reflexivity |].
  unfold verdict, attempts, cascade, built_env, target_of, argument_ok,
    command_of, argument_of.
  simpl nth_error.
  destruct rest as [|u r]; enter_main; repeat (rewrite ?snprintf_s_fits; branch);
    trace_facts.
  all: split; reflexivity.
Qed.

(** Decide the tests of the cascade, one after the other. *)
Ltac cascade_step :=
  match goal with
  | |- context [target_of ?a] => destruct (target_of a) as [?script|] eqn:?
  | |- context [argument_ok ?a] => destruct (argument_ok a) eqn:?
  | |- context [sys_access_x ?s ?p] => destruct (sys_access_x s p) eqn:?
  | |- context [owned ?s ?p] => destruct (owned s p) eqn:?
  | |- context [argument_of ?a] => destruct (argument_of a) eqn:?
  | |- context [sys_alloc ?s 0] => destruct (sys_alloc s 0) eqn:?
  | |- context [sys_alloc ?s 1] => destruct (sys_alloc s 1) eqn:?
  | |- context [sys_execve ?s ?p ?a ?e] => destruct (sys_execve s p a e) eqn:?
  end; cbn [negb].

Ltac by_cascade :=
  unfold verdict, attempts, cascade; repeat cascade_step.

(** X1: the outcome of [main] follows a fixed order of tests: no or an
    unknown command gives exit code 2; else an argument that is not valid
    gives 3; else a script that is not executable gives 4; else a failed
    ownership check gives 5; else, with an argument, a failed first
    allocation gives 10 and a failed allocation of the array a store
    through NULL; else execve is called once, and its failure gives 6. *)
Theorem main_decision_table (sys : Sys) (argv : list string) :
  result sys argv = verdict sys argv /\
  execs (calls sys argv) = attempts sys argv.
Proof. exact (result_verdict sys argv). Qed.

(** X2: [main] never returns 0: its exit codes are 2, 3, 4, 5, 6 and 10. *)
Theorem exit_codes_closed (sys : Sys) (argv : list string) :
  match result sys argv with
  | Exit c => In c [2; 3; 4; 5; 6; 10]
  | _ => True
  end.
Proof.
  rewrite (proj1 (result_verdict sys argv)).
  by_cascade; simpl; tauto.
Qed.

(** X3: exit code 2 is returned only for a missing or unknown command. *)
Theorem exit_2_iff (sys : Sys) (argv : list string) :
  result sys argv = Exit 2 <-> target_of argv = None.
Proof.
  rewrite (proj1 (result_verdict sys argv)).
  by_cascade; split; intros H; try discriminate H; reflexivity.
Qed.

(** X4: exit code 4 is returned exactly when the command is recognised, the
    argument is absent or valid, and access(script, X_OK) fails. *)
Theorem exit_4_iff (sys : Sys) (argv : list string) :
  result sys argv = Exit 4 <->
  exists script, target_of argv = Some script /\ argument_ok argv = true /\
    sys_access_x sys script <> Ok.
Proof.
  rewrite (proj1 (result_verdict sys argv)).
  by_cascade; split; intros H; try discriminate H.
  all: try (destruct H as (s' & T & A & X); try discriminate T; try discriminate A;
            injection T as <-; congruence).
  all: try reflexivity.
  all: eexists; split; [reflexivity|]; split; [reflexivity|]; congruence.
Qed.

(** X5: exit code 10 is returned exactly when every check has passed, an
    argument is present, and the first allocation request fails. *)
Theorem exit_10_iff (sys : Sys) (argv : list string) :
  result sys argv = Exit 10 <->
  exists script, target_of argv = Some script /\ argument_ok argv = true /\
    sys_access_x sys script = Ok /\ owned sys script = true /\
    argument_of argv <> None /\ sys_alloc sys 0 = false.
Proof.
  rewrite (proj1 (result_verdict sys argv)).
  by_cascade; split; intros H; try discriminate H.
  all: try (destruct H as (s' & T & A & X & O & G & M); try discriminate T;
            try discriminate A; try discriminate M; try (now elim G);
            injection T as <-; congruence).
  all: try reflexivity.
  all: eexists; repeat split; try eassumption; congruence.
Qed.

(** X6: the run ends in a store through NULL exactly when every check has
    passed, an argument is present, the first allocation succeeds and the
    allocation of the pointer array, which is not checked, fails. *)
Theorem fault_iff (sys : Sys) (argv : list string) :
  result sys argv = Fault <->
  exists script, target_of argv = Some script /\ argument_ok argv = true /\
    sys_access_x sys script = Ok /\ owned sys script = true /\
    argument_of argv <> None /\ sys_alloc sys 0 = true /\ sys_alloc sys 1 = false.
Proof.
  rewrite (proj1 (result_verdict sys argv)).
  by_cascade; split; intros H; try discriminate H.
  all: try (destruct H as (s' & T & A & X & O & G & M0 & M1); try discriminate T;
            try discriminate A; try discriminate M0; try discriminate M1;
            try (now elim G); injection T as <-; congruence).
  all: try reflexivity.
  all: eexists; repeat split; try eassumption; congruence.
Qed.

(** X7: execve is called only after the argument has been validated and
    both provenance checks have passed, at most once in a run, and with the
    path of the script as its only argument. *)
Theorem exec_guarded (sys : Sys) (argv : list string) (p : string) (a e : list string) :
  In (p, a, e) (execs (calls sys argv)) ->
  target_of argv = Some p /\ a = [p] /\ argument_ok argv = true /\
  sys_access_x sys p = Ok /\ owned sys p = true /\
  execs (calls sys argv) = [(p, a, e)].
Proof.
  rewrite (proj2 (result_verdict sys argv)).
  by_cascade; intros H; try (now elim H).
  all: destruct H as [E|[]]; injection E as <- <- <-.
  all: repeat split; first [reflexivity | assumption | congruence].
Qed.

Lemma exec_guarded_witness :
  target_of ["panel_wrapper"; "memwatch"; "/tmp/et.pid"] = Some MEMWATCH /\
  [MEMWATCH] = [MEMWATCH] /\
  argument_ok ["panel_wrapper"; "memwatch"; "/tmp/et.pid"] = true /\
  sys_access_x sys_ok MEMWATCH = Ok /\ owned sys_ok MEMWATCH = true /\
  execs (calls sys_ok ["panel_wrapper"; "memwatch"; "/tmp/et.pid"]) =
  [(MEMWATCH, [MEMWATCH], ["ET_PID_FILE=/tmp/et.pid"; "PATH=/usr/bin:/bin"; "LANG=C"])].
Proof.
  apply (exec_guarded sys_ok ["panel_wrapper"; "memwatch"; "/tmp/et.pid"]).
  vm_compute. left. reflexivity.
Defined.


(** X9: the two strdup calls are not checked: once every check has passed
    and the two malloc calls have succeeded, the run arrives at execve
    whatever the strdup calls return, and the environment it hands over
    ends before the first entry whose copy failed. *)
Theorem unchecked_strdup_truncates (sys : Sys) (argv : list string)
    (script cmd arg : string) :
  target_of argv = Some script ->
  command_of argv = Some cmd ->
  argument_of argv = Some arg ->
  argument_ok argv = true ->
  sys_access_x sys script = Ok ->
  owned sys script = true ->
  sys_alloc sys 0 = true ->
  sys_alloc sys 1 = true ->
  execs (calls sys argv) =
  [(script, [script],
    ((if String.eqb cmd "autodeploy" then "DOWNLOAD_URL=" else "ET_PID_FILE=") ++ arg) ::
    (if sys_alloc sys 2
     then "PATH=/usr/bin:/bin" :: (if sys_alloc sys 3 then ["LANG=C"] else [])
     else []))].
Proof.
  intros T C A V X O M0 M1. rewrite (proj2 (result_verdict sys argv)).
  unfold attempts, cascade, built_env.
  rewrite T, V, X, O, A, M0, M1, C. reflexivity.
Qed.

Lemma unchecked_strdup_truncates_witness :
  execs (calls sys_nopath ["panel_wrapper"; "autodeploy"; "http://example.com/a"]) =
  [(AUTODEPLOY, [AUTODEPLOY],
    ((if String.eqb "autodeploy" "autodeploy" then "DOWNLOAD_URL=" else "ET_PID_FILE=")
       ++ "http://example.com/a") ::
    (if sys_alloc sys_nopath 2
     then "PATH=/usr/bin:/bin" :: (if sys_alloc sys_nopath 3 then ["LANG=C"] else [])
     else []))].
Proof.
  apply (unchecked_strdup_truncates sys_nopath
           ["panel_wrapper"; "autodeploy"; "http://example.com/a"]
           AUTODEPLOY "autodeploy" "http://example.com/a"); reflexivity.
Defined.

Lemma owned_same (sys1 sys2 : Sys) (path : string) :
  same_answers sys1 sys2 -> owned sys1 path = owned sys2 path.
Proof.
  intros (_ & S & G & _). rewrite !owned_eq. unfold panel_uid.
  rewrite S, G. reflexivity.
Qed.

Lemma cascade_same (sys1 sys2 : Sys) (argv : list string) :
  same_answers sys1 sys2 -> cascade sys1 argv = cascade sys2 argv.
Proof.
  intros H. pose proof H as (X & _ & _ & M & _). unfold cascade.
  destruct (target_of argv) as [script|]; [|reflexivity].
  rewrite X, (owned_same sys1 sys2 script H), !M. reflexivity.
Qed.

Lemma built_env_same (sys1 sys2 : Sys) (argv : list string) :
  same_answers sys1 sys2 -> built_env sys1 argv = built_env sys2 argv.
Proof.
  intros (_ & _ & _ & M & _). unfold built_env. rewrite !M. reflexivity.
Qed.

(** X10: the decisions of [main] rest on the answers of access, stat,
    getpwnam, the allocator and execve alone: the uid, euid and gid of the
    caller, its environment, the log file and the clock change neither the
    outcome of a run nor the process transfer it attempts. *)
Theorem caller_identity_irrelevant (sys1 sys2 : Sys) (argv : list string) :
  same_answers sys1 sys2 ->
  result sys1 argv = result sys2 argv /\
  execs (calls sys1 argv) = execs (calls sys2 argv).
Proof.
  intros H.
  rewrite (proj1 (result_verdict sys1 argv)), (proj1 (result_verdict sys2 argv)),
    (proj2 (result_verdict sys1 argv)), (proj2 (result_verdict sys2 argv)).
  unfold verdict, attempts.
  rewrite (cascade_same sys1 sys2 argv H), (built_env_same sys1 sys2 argv H).
  destruct H as (_ & _ & _ & _ & E).
  destruct (cascade sys2 argv) as [o|script]; [split; reflexivity|].
  rewrite E. split; reflexivity.
Qed.

Lemma caller_identity_irrelevant_witness :
  result sys_ok ["panel_wrapper"; "autodeploy"; "https://example.com/a.tgz"] =
  result sys_other ["panel_wrapper"; "autodeploy"; "https://example.com/a.tgz"] /\
  execs (calls sys_ok ["panel_wrapper"; "autodeploy"; "https://example.com/a.tgz"]) =
  execs (calls sys_other ["panel_wrapper"; "autodeploy"; "https://example.com/a.tgz"]).
Proof.
  apply caller_identity_irrelevant.
  unfold same_answers. simpl. repeat split; reflexivity.
Defined.

(** X11: when stat fails on the script, the ownership check rejects it
    without a look at the account database, and a run that had passed the
    earlier tests exits with code 5. *)
Theorem stat_failure_exits_5 (sys : Sys) (argv : list string) (script : string) :
  target_of argv = Some script ->
  argument_ok argv = true ->
  sys_access_x sys script = Ok ->
  sys_stat_uid sys script = None ->
  result sys argv = Exit 5 /\
  forall s, file_owned_by_allowed sys script s =
            (Next false, mkState (trace s ++ [EvStat script]) (nfopen s) (nalloc s)).
Proof.
  intros T A X S.
  assert (O : owned sys script = false) by (rewrite owned_eq, S; reflexivity).
  split.
  - rewrite (proj1 (result_verdict sys argv)). unfold verdict, cascade.
    rewrite T, A, X, O. reflexivity.
  - intros s. rewrite file_owned_by_allowed_run, O. unfold owner_events.
    rewrite S. reflexivity.
Qed.

Lemma stat_failure_exits_5_witness :
  result sys_nostat ["panel_wrapper"; "autodeploy"] = Exit 5 /\
  forall s, file_owned_by_allowed sys_nostat AUTODEPLOY s =
            (Next false, mkState (trace s ++ [EvStat AUTODEPLOY]) (nfopen s) (nalloc s)).
Proof.
  apply (stat_failure_exits_5 sys_nostat ["panel_wrapper"; "autodeploy"] AUTODEPLOY);
    reflexivity.
Defined.

(** ** The validators against each other *)

(** X12: no argument is accepted by both validators: what is valid for
    autodeploy is rejected for memwatch. *)
Theorem validators_disjoint (s : string) :
  is_valid_url (Some s) = true -> is_safe_path (Some s) = false.
Proof.
  intros U. apply is_valid_url_spec in U. destruct U as (_ & B).
  destruct (is_safe_path (Some s)) eqn:P; [|reflexivity].
  apply is_safe_path_spec in P. destruct P as (_ & C & _).
  destruct B as [[r ->]|[r ->]]; discriminate C.
Qed.

Lemma validators_disjoint_witness :
  is_safe_path (Some "http://tmp/var/run/") = false.
Proof. apply validators_disjoint. reflexivity. Defined.

(** ** The calls of a run *)

#[local] Arguments count : simpl never.

Lemma count_app (f : event -> bool) (t1 t2 : list event) :
  count f (t1 ++ t2) = (count f t1 + count f t2)%nat.
Proof. unfold count. rewrite filter_app, length_app. reflexivity. Qed.

Lemma count_fopen_log (sys : Sys) (n : nat) (msg : string) :
  count is_fopen (log_events sys n msg) = 1%nat.
Proof. unfold log_events. destruct (sys_fopen_log sys n); reflexivity. Qed.

Lemma count_stderr_log (sys : Sys) (n : nat) (msg : string) :
  count is_stderr (log_events sys n msg) = 0%nat.
Proof. unfold log_events. destruct (sys_fopen_log sys n); reflexivity. Qed.

Lemma count_alloc_log (sys : Sys) (n : nat) (msg : string) :
  count is_alloc (log_events sys n msg) = 0%nat.
Proof. unfold log_events. destruct (sys_fopen_log sys n); reflexivity. Qed.

Lemma count_fopen_owner (sys : Sys) (path : string) :
  count is_fopen (owner_events sys path) = 0%nat.
Proof. unfold owner_events. destruct (sys_stat_uid sys path); reflexivity. Qed.

Lemma count_stderr_owner (sys : Sys) (path : string) :
  count is_stderr (owner_events sys path) = 0%nat.
Proof. unfold owner_events. destruct (sys_stat_uid sys path); reflexivity. Qed.

Lemma count_alloc_owner (sys : Sys) (path : string) :
  count is_alloc (owner_events sys path) = 0%nat.
Proof. unfold owner_events. destruct (sys_stat_uid sys path); reflexivity. Qed.

Ltac count_facts :=
  rewrite ?count_app, ?count_fopen_log, ?count_stderr_log, ?count_alloc_log,
    ?count_fopen_owner, ?count_stderr_owner, ?count_alloc_owner.

(** The log attempts, the messages on the error stream and the allocation
    requests of a run. *)
Lemma diagnostics (sys : Sys) (argv : list string) :
  count is_fopen (calls sys argv) =
    match command_of argv with
    | None => 0%nat
    | Some _ => log_attempts_of (result sys argv)
    end
  /\ count is_stderr (calls sys argv) = stderr_messages_of (result sys argv)
  /\ (count is_alloc (calls sys argv) <=? 4)%nat = true
  /\ (argument_of argv = None -> count is_alloc (calls sys argv) = 0%nat).
Proof.
  destruct argv as [|a0 [|cmd rest]];
    [repeat split; reflexivity | repeat split; reflexivity |].
  unfold command_of, argument_of. simpl nth_error.
  destruct rest as [|u r]; run_main; count_facts.
  all: repeat split; try reflexivity; discriminate.
Qed.

(** X13: a run without a command makes no attempt to log; a run with a
    command attempts to open the log once when it ends on a failed
    allocation (which is not logged), three times when execve fails, and
    twice in every other case. *)
Theorem log_attempts_by_outcome (sys : Sys) (argv : list string) :
  count is_fopen (calls sys argv) =
  match command_of argv with
  | None => 0%nat
  | Some _ => log_attempts_of (result sys argv)
  end.
Proof. exact (proj1 (diagnostics sys argv)). Qed.

(** X14: a run that returns an exit code other than 10 writes one message
    on the error stream; a run that returns 10, that ends in a store
    through NULL or that replaces the process image writes none. *)
Theorem stderr_messages_by_outcome (sys : Sys) (argv : list string) :
  count is_stderr (calls sys argv) = stderr_messages_of (result sys argv).
Proof. exact (proj1 (proj2 (diagnostics sys argv))). Qed.

(** X15: a run makes at most four allocation requests, and none when no
    argument is given: the environment is then the static array, and the
    run can end neither with exit code 10 nor in a store through NULL. *)
Theorem no_argument_no_allocation (sys : Sys) (argv : list string) :
  (count is_alloc (calls sys argv) <= 4)%nat /\
  (argument_of argv = None ->
   count is_alloc (calls sys argv) = 0%nat /\
   result sys argv <> Exit 10 /\ result sys argv <> Fault).
Proof.
  destruct (diagnostics sys argv) as (_ & _ & B & Z0).
  split; [apply Nat.leb_le; exact B|].
  intros A. split; [exact (Z0 A)|].
  rewrite (proj1 (result_verdict sys argv)). unfold verdict, cascade. rewrite A.
  repeat cascade_step; split; discriminate.
Qed.

Lemma fixed_name_log (argv : list string) (sys : Sys) (n : nat) (msg : string) :
  Forall (fixed_name argv) (log_events sys n msg).
Proof.
  unfold log_events. destruct (sys_fopen_log sys n); repeat constructor.
Qed.

Lemma fixed_name_owner (argv : list string) (sys : Sys) (path : string) :
  target_of argv = Some path ->
  Forall (fixed_name argv) (owner_events sys path).
Proof.
  intros T. unfold owner_events.
  destruct (sys_stat_uid sys path); repeat constructor; exact T.
Qed.

(** X16: the argument of the caller never becomes the subject of a call:
    the only file opened is the log file, access, stat and execve are only
    applied to the script of the command, and the only account looked up
    is panel. *)
Theorem calls_on_fixed_names (sys : Sys) (argv : list string) (ev : event) :
  In ev (calls sys argv) -> fixed_name argv ev.
Proof.
  revert ev. apply Forall_forall.
  destruct argv as [|a0 [|cmd rest]]; [repeat constructor | repeat constructor |].
  destruct rest as [|u r]; run_main.
  all: subst; repeat (apply Forall_app; split).
  all: first [ apply fixed_name_log
             | apply fixed_name_owner; reflexivity
             | repeat constructor ].
Qed.

Lemma calls_on_fixed_names_witness :
  fixed_name ["panel_wrapper"; "memwatch"; "/tmp/../etc/shadow"] (EvStat MEMWATCH).
Proof.
  apply (calls_on_fixed_names sys_ok). vm_compute. tauto.
Defined.

(** X17: in a run with a command the first call is the attempt to log the
    invocation, and the line carries the command and the argument as they
    were given, before any validation. *)
Theorem audit_comes_first (sys : Sys) (argv : list string) (cmd : string) :
  command_of argv = Some cmd ->
  exists rest,
    calls sys argv =
    (log_events sys 0 (invocation_message sys cmd (argument_of argv)) ++ rest)%list.
Proof.
  destruct argv as [|a0 [|c rest]]; try discriminate.
  unfold command_of, argument_of, invocation_message. simpl nth_error.
  intros C. injection C as ->.
  destruct rest as [|u r]; run_main.
  all: rewrite <- ?app_assoc; eexists; reflexivity.
Qed.

Lemma audit_comes_first_witness :
  exists rest,
    calls sys_ok ["panel_wrapper"; "autodeploy"; "ftp://x"] =
    (log_events sys_ok 0
       (invocation_message sys_ok "autodeploy"
          (argument_of ["panel_wrapper"; "autodeploy"; "ftp://x"])) ++ rest)%list.
Proof. apply audit_comes_first. reflexivity. Defined.

(** X18: every call of execve is announced: the call just before it is an
    attempt to log the line "executing <script>". *)
Theorem transfer_is_announced (sys : Sys) (argv : list string)
    (p : string) (a e : list string) :
  In (p, a, e) (execs (calls sys argv)) ->
  exists pre n post,
    calls sys argv =
    (((pre ++ log_events sys n ("executing " ++ p)) ++ [EvExecve p a e]) ++ post)%list.
Proof.
  destruct argv as [|a0 [|cmd rest]]; [intros H; elim H | intros H; elim H |].
  destruct rest as [|u r]; run_main; trace_facts.
  all: intros H; try (elim H; fail).
  all: destruct H as [E|[]]; injection E as <- <- <-.
  all: first [ eexists _, _, []; rewrite app_nil_r; reflexivity
             | rewrite <- app_assoc; eexists _, _, _; reflexivity ].
Qed.

Lemma transfer_is_announced_witness :
  exists pre n post,
    calls sys_noexecve ["panel_wrapper"; "memwatch"] =
    (((pre ++ log_events sys_noexecve n ("executing " ++ MEMWATCH))
      ++ [EvExecve MEMWATCH [MEMWATCH] ["PATH=/usr/bin:/bin"; "LANG=C"]]) ++ post)%list.
Proof.
  apply transfer_is_announced. vm_compute. left. reflexivity.
Defined.

Lemma access_log (sys : Sys) (n : nat) (msg : string) :
  existsb is_access (log_events sys n msg) = false.
Proof. unfold log_events. destruct (sys_fopen_log sys n); reflexivity. Qed.

Lemma stat_log (sys : Sys) (n : nat) (msg : string) :
  existsb is_stat (log_events sys n msg) = false.
Proof. unfold log_events. destruct (sys_fopen_log sys n); reflexivity. Qed.

Lemma access_owner (sys : Sys) (path : string) :
  existsb is_access (owner_events sys path) = false.
Proof. unfold owner_events. destruct (sys_stat_uid sys path); reflexivity. Qed.

Lemma stat_owner (sys : Sys) (path : string) :
  existsb is_stat (owner_events sys path) = true.
Proof. reflexivity. Qed.

(** Finish one of the equivalences on the order of the tests. *)
Ltac stage :=
  cbn;
  split;
  [ first [ discriminate
          | intros _; eexists; repeat split;
            first [reflexivity | eassumption | discriminate] ]
  | first [ reflexivity
          | intros (? & T & H); try discriminate T;
            repeat match type of H with _ /\ _ => destruct H as [? H] end;
            first [discriminate | congruence | (exfalso; auto; fail)] ] ].

(** X19: the tests come in a fixed order: access is called exactly when the
    command is recognised and the argument absent or valid; stat exactly
    when, moreover, access has succeeded; memory is requested exactly when,
    moreover, the ownership check has accepted the script and an argument
    is present. *)
Theorem checks_in_order (sys : Sys) (argv : list string) :
  (existsb is_access (calls sys argv) = true <->
   exists p, target_of argv = Some p /\ argument_ok argv = true)
  /\ (existsb is_stat (calls sys argv) = true <->
      exists p, target_of argv = Some p /\ argument_ok argv = true /\
        sys_access_x sys p = Ok)
  /\ (existsb is_alloc (calls sys argv) = true <->
      exists p, target_of argv = Some p /\ argument_ok argv = true /\
        sys_access_x sys p = Ok /\ owned sys p = true /\ argument_of argv <> None).
Proof.
  destruct argv as [|a0 [|cmd rest]].
  1, 2: repeat split; try discriminate; intros (? & T & _); discriminate T.
  unfold target_of, argument_ok, command_of, argument_of. simpl nth_error.
  destruct rest as [|u r]; run_main.
  all: rewrite ?existsb_app, ?access_log, ?stat_log, ?alloc_log, ?access_owner,
         ?stat_owner, ?alloc_owner.
  all: split; [stage | split; stage].
Qed.

(** ** Concrete runs *)

Example run_autodeploy_ftp :
  result sys_ok ["panel_wrapper"; "autodeploy"; "ftp://x"] = Exit 3.
Proof. reflexivity. Qed.

Example run_memwatch_etc_passwd :
  result sys_ok ["panel_wrapper"; "memwatch"; "/etc/passwd"] = Exit 3.
Proof. reflexivity. Qed.

Example run_autodeploy_url :
  result sys_ok ["panel_wrapper"; "autodeploy"; "https://example.com/a.tgz"] =
  Replaced "/opt/panel/scripts/autodeploy.sh" ["/opt/panel/scripts/autodeploy.sh"]
    ["DOWNLOAD_URL=https://example.com/a.tgz"; "PATH=/usr/bin:/bin"; "LANG=C"].
Proof. reflexivity. Qed.

Example run_memwatch_no_argument :
  result sys_ok ["panel_wrapper"; "memwatch"] =
  Replaced "/opt/panel/scripts/memwatch.sh" ["/opt/panel/scripts/memwatch.sh"]
    ["PATH=/usr/bin:/bin"; "LANG=C"].
Proof. reflexivity. Qed.

Example run_not_executable :
  result sys_noexec ["panel_wrapper"; "autodeploy"] = Exit 4.
Proof. reflexivity. Qed.

Example run_foreign_owner :
  result sys_foreign ["panel_wrapper"; "memwatch"; "/var/run/et.pid"] = Exit 5.
Proof. reflexivity. Qed.

Example run_no_command : result sys_ok ["panel_wrapper"] = Exit 2.
Proof. reflexivity. Qed.

(** The first allocation fails: exit code 10, before any execve. *)
Example run_out_of_memory :
  let sys := mkSys 1000 0 1000 [] (fun _ => true) (fun _ => "2024-01-01T00:00:00+0000")
               (fun _ => Ok) (fun _ => Some 0) (fun _ => Some 995)
               (fun _ => false) (fun _ _ _ => Ok) in
  result sys ["panel_wrapper"; "memwatch"; "/tmp/et.pid"] = Exit 10 /\
  execs (calls sys ["panel_wrapper"; "memwatch"; "/tmp/et.pid"]) = [].
Proof. split; reflexivity. Qed.

(** The second strdup fails: the array ends after two entries. *)
Example run_strdup_fails :
  let sys := mkSys 1000 0 1000 [] (fun _ => true) (fun _ => "2024-01-01T00:00:00+0000")
               (fun _ => Ok) (fun _ => Some 0) (fun _ => Some 995)
               (fun n => negb (Nat.eqb n 3)) (fun _ _ _ => Ok) in
  result sys ["panel_wrapper"; "memwatch"; "/tmp/et.pid"] =
  Replaced "/opt/panel/scripts/memwatch.sh" ["/opt/panel/scripts/memwatch.sh"]
    ["ET_PID_FILE=/tmp/et.pid"; "PATH=/usr/bin:/bin"].
Proof. reflexivity. Qed.
